(** * The single-level paid / reported loss model

    A shallow embedding of [single_level_paid_rpt_loss_model]
    (src/single_level_paid_rpt_loss.py).  The function is one linear sequence
    of declarations made inside a model-building context; it is embedded as a
    computation in a state-and-error monad whose state is the model under
    construction.  The embedding has two layers.

    - The declaration sequence ([single_level_paid_rpt_loss_model]): what
      the function declares, line by line, every library call taken as
      accepted, and its graph evaluated over the real numbers.  This is
      the layer on which the formulas and the declared axes are read.

    - The call against a library
      ([WithLibrary.single_level_paid_rpt_loss_model]): the import line,
      the binding of the arguments and each library call can end the
      call; what the library exports and accepts is a parameter, and
      [pymc_library] is the library the module imports.  Evaluation in
      any arithmetic ([Numeric]) covers the real and the binary64
      numbers.

    The tensor operators are elementwise with NumPy broadcasting. *)

From Stdlib Require Import Reals Lra List String Bool Arith Lia PrimFloat.
Import ListNotations.

Local Open Scope string_scope.
Local Open Scope list_scope.
Local Open Scope R_scope.

(** ** Arrays *)

(** An n-dimensional array: its shape (what [.shape] returns, a tuple of
    lengths) and its entries, read by a multi-index. *)
Record ndarray : Type := mk_ndarray {
  shape : list nat;
  item  : list nat -> R
}.

(** A one-dimensional array holding the entries of [l]. *)
Definition vec (l : list R) : ndarray :=
  {| shape := [List.length l];
     item  := fun idx => nth (hd 0%nat idx) l 0 |}.

(** A two-dimensional array given by its rows. *)
Definition mat (rows : list (list R)) : ndarray :=
  {| shape := [List.length rows; List.length (hd [] rows)];
     item  := fun idx =>
                nth (nth 1 idx 0%nat) (nth (hd 0%nat idx) rows []) 0 |}.

(** [len a] is Python's [len(a)]: the length of the first axis. *)
Definition len (a : ndarray) : nat := hd 0%nat (shape a).

(** *** Broadcasting

    The arithmetic operators of the tensor library are elementwise with
    NumPy broadcasting: shapes are aligned on their trailing axes, and an
    axis of length 1 is stretched. *)

Fixpoint broadcast_rev (s1 s2 : list nat) : option (list nat) :=
  match s1, s2 with
  | [], s => Some s
  | s, [] => Some s
  | a :: s1', b :: s2' =>
      match broadcast_rev s1' s2' with
      | None => None
      | Some s =>
          if (a =? b)%nat then Some (a :: s)
          else if (a =? 1)%nat then Some (b :: s)
          else if (b =? 1)%nat then Some (a :: s)
          else None
      end
  end.

Definition broadcast_shapes (s1 s2 : list nat) : option (list nat) :=
  option_map (@rev nat) (broadcast_rev (rev s1) (rev s2)).

(** The index at which an operand of shape [s] is read when the result is
    read at [idx]: the trailing indices, 0 on the stretched axes. *)
Definition bidx (s idx : list nat) : list nat :=
  map (fun p : nat * nat => if (fst p =? 1)%nat then 0%nat else snd p)
      (combine s (skipn (List.length idx - List.length s) idx)).

(** [get a idx]: the entry of [a] seen at [idx] after broadcasting. *)
Definition get (a : ndarray) (idx : list nat) : R :=
  item a (bidx (shape a) idx).

(** A binary operator applied entry by entry, after broadcasting; it fails
    when the two shapes do not broadcast. The entries are real numbers:
    no rounding, no overflow and no underflow; [Numeric.elemwise] is the
    same operator in any arithmetic. *)
Definition elemwise (f : R -> R -> R) (a b : ndarray) : option ndarray :=
  match broadcast_shapes (shape a) (shape b) with
  | Some s => Some {| shape := s; item := fun idx => f (get a idx) (get b idx) |}
  | None => None
  end.

(** A unary function applied entry by entry; the shape is kept. *)
Definition map_nd (f : R -> R) (a : ndarray) : ndarray :=
  {| shape := shape a; item := fun idx => f (item a idx) |}.

(** ** Declarations *)

(** Symbolic expressions over declared variables, as built by
    [pm.math.exp], [*], [/] and [** 2]. *)
Inductive expr : Type :=
| EVar (name : string)
| EExp (e : expr)
| EMul (e1 e2 : expr)
| EDiv (e1 e2 : expr)
| EPow (e : expr) (k : nat).

(** The distribution constructors the function uses, with the keyword
    arguments it gives them. *)
Inductive dist : Type :=
| Normal     (mu sd : R)
| Uniform    (lower upper : R)
| HalfNormal (sd : R)
| Gamma      (alpha beta : expr).

(** The [shape=] argument as the function builds it: a tuple whose
    components are themselves [.shape] tuples. *)
Definition shape_arg : Type := list (list nat).

(** A named node of the model. [dims] is the tuple of axis names (a single
    string is the tuple of that one name). *)
Inductive node : Type :=
| RandomVariable (d : dist) (dims : list string)
                 (shp : option shape_arg) (observed : option ndarray)
| Deterministic  (e : expr) (shp : option shape_arg).

Record Model : Type := mk_Model {
  coords     : list (string * ndarray);
  named_vars : list (string * node)
}.


Fixpoint lookup {A : Type} (k : string) (l : list (string * A)) : option A :=
  match l with
  | [] => None
  | (k', v) :: l' => if String.eqb k k' then Some v else lookup k l'
  end.

(** ** The model-building monad *)

(** The ways a call of the function can end without a model: a name the
    import line asks for is missing, a keyword is bound twice, an
    attribute is missing, a key is missing, a library callable refuses
    its arguments, a name is registered twice. *)
Inductive error : Type :=
| KeyError (key : string)
| DuplicateName (name : string)
| ImportError (module name : string)
| MultipleValues (keyword : string)
| AttributeError (attribute : string)
| Refused (callable : string).

Inductive result (A : Type) : Type :=
| Ok (a : A)
| Err (e : error).
Arguments Ok {A} a.
Arguments Err {A} e.

(** A computation inside [with pm.Model(...) as model:]: it reads and
    extends the model of the enclosing context. *)
Definition builder (A : Type) : Type := Model -> result (A * Model).

Definition ret {A : Type} (a : A) : builder A := fun m => Ok (a, m).

Definition bind {A B : Type} (c : builder A) (k : A -> builder B) : builder B :=
  fun m => match c m with
           | Ok (a, m') => k a m'
           | Err e => Err e
           end.

Notation "x <- c ;; k" := (bind c (fun x => k))
  (at level 61, c at next level, right associativity).

(** [d[key]] on a dictionary. *)
Definition getitem (d : list (string * ndarray)) (key : string) : builder ndarray :=
  fun m => match lookup key d with
           | Some v => Ok (v, m)
           | None => Err (KeyError key)
           end.

(** Registration of a node under a name. The registry keeps one
    definition per name and refuses a name it already holds; the handle
    returned is the variable itself, as an expression. Registration is
    what a library callable does once it has accepted its arguments;
    whether it accepts them is decided in [WithLibrary.construct]. *)
Definition register (name : string) (n : node) : builder expr :=
  fun m => match lookup name (named_vars m) with
           | Some _ => Err (DuplicateName name)
           | None =>
               Ok (EVar name,
                   {| coords := coords m;
                      named_vars := named_vars m ++ [(name, n)] |})
           end.

(** [with pm.Model(coords=coords) as model: body] followed by
    [return model]: the body runs in a fresh model holding [coords]. *)
Definition with_Model {A : Type} (cs : list (string * ndarray))
           (body : builder A) : result Model :=
  match body {| coords := cs; named_vars := [] |} with
  | Ok (_, m) => Ok m
  | Err e => Err e
  end.

(** Keyword configuration, as the pairs of a [**kwargs]. Whether it
    binds (no key twice, no key that names a parameter) is decided by
    [bind_kwargs]. *)
Definition kwargs_t : Type := list (string * string).

(** ** The function: its declaration sequence

    The body of the function on arrays, every library call taken as
    accepted: the graph the function declares. Whether a call of the
    function returns at all is the matter of
    [WithLibrary.single_level_paid_rpt_loss_model]. *)

Definition single_level_paid_rpt_loss_model
  (origin_period development_period observed_rpt_loss observed_paid_loss : ndarray)
  (kwargs : kwargs_t) : result Model :=
  let coords :=
    [ ("origin_period", origin_period);
      ("development_period", development_period);
      ("observed_rpt_loss", observed_rpt_loss);
      ("observed_paid_loss", observed_paid_loss) ] in
  with_Model coords (
    (* ---- priors ---- *)
    log__expected_ult__loss <-
      register "log__expected_ult__loss"
        (RandomVariable (Normal 0 10) ["origin_period"] None None) ;;
    expected_pct_of_ult__rpt_loss <-
      register "expected_pct_of_ult__rpt_loss"
        (RandomVariable (Uniform 0 2) ["development_period"] None None) ;;
    expected_pct_of_ult__paid_loss <-
      register "expected_pct_of_ult__paid_loss"
        (RandomVariable (Uniform 0 (12 / 10)) ["development_period"] None None) ;;
    o1 <- getitem coords "origin_period" ;;
    d1 <- getitem coords "development_period" ;;
    sigma__rpt_loss <-
      register "sigma__rpt_loss"
        (RandomVariable (HalfNormal 10) ["origin_period"]
                        (Some [shape o1; shape d1]) None) ;;
    o2 <- getitem coords "origin_period" ;;
    d2 <- getitem coords "development_period" ;;
    sigma__paid_loss <-
      register "sigma__paid_loss"
        (RandomVariable (HalfNormal 10) ["origin_period"]
                        (Some [shape o2; shape d2]) None) ;;
    (* ---- deterministic variables ---- *)
    expected_ult__loss <-
      register "expected_ult__loss"
        (Deterministic (EExp log__expected_ult__loss) None) ;;
    o3 <- getitem coords "origin_period" ;;
    d3 <- getitem coords "development_period" ;;
    mu__rpt_loss <-
      register "mu__rpt_loss"
        (Deterministic (EMul expected_ult__loss expected_pct_of_ult__rpt_loss)
                       (Some [shape o3; shape d3])) ;;
    o4 <- getitem coords "origin_period" ;;
    d4 <- getitem coords "development_period" ;;
    mu__paid_loss <-
      register "mu__paid_loss"
        (Deterministic (EMul expected_ult__loss expected_pct_of_ult__paid_loss)
                       (Some [shape o4; shape d4])) ;;
    (* ---- likelihood ---- *)
    obs_rpt <- getitem coords "observed_rpt_loss" ;;
    rpt_loss <-
      register "rpt_loss"
        (RandomVariable
           (Gamma (EDiv mu__rpt_loss (EPow sigma__rpt_loss 2))
                  (EDiv (EPow sigma__rpt_loss 2) mu__rpt_loss))
           ["origin_period"; "development_period"] None (Some obs_rpt)) ;;
    obs_paid <- getitem coords "observed_paid_loss" ;;
    paid_loss <-
      register "paid_loss"
        (RandomVariable
           (Gamma (EDiv mu__paid_loss (EPow sigma__paid_loss 2))
                  (EDiv (EPow sigma__paid_loss 2) mu__paid_loss))
           ["origin_period"; "development_period"] None (Some obs_paid)) ;;
    ret tt).

(** ** Evaluation of the model's graph *)

(** Values of variables, by name. *)
Definition env : Type := list (string * ndarray).

(** Value of an expression over the real numbers; [None] when two
    operand shapes do not broadcast or a variable has no value.
    [Numeric.eval] is the same evaluation in any arithmetic. *)
Fixpoint eval (vs : env) (e : expr) : option ndarray :=
  match e with
  | EVar name => lookup name vs
  | EExp a => option_map (map_nd exp) (eval vs a)
  | EMul a b =>
      match eval vs a, eval vs b with
      | Some x, Some y => elemwise Rmult x y
      | _, _ => None
      end
  | EDiv a b =>
      match eval vs a, eval vs b with
      | Some x, Some y => elemwise Rdiv x y
      | _, _ => None
      end
  | EPow a k => option_map (map_nd (fun x => x ^ k)) (eval vs a)
  end.

(** One forward pass over the nodes in declaration order. An unobserved
    random variable takes its value from the assignment [theta] of the
    latent parameters, an observed one is fixed at its data, and a
    deterministic variable is computed from the values before it. The
    pass gives the values of the variables only: the parameters of the
    likelihood terms are evaluated by [likelihood_params], and a value
    is taken from [theta] with whatever shape it has. *)
Fixpoint forward (theta : env) (vars : list (string * node)) (vs : env)
  : option env :=
  match vars with
  | [] => Some vs
  | (name, n) :: rest =>
      let v := match n with
               | RandomVariable _ _ _ (Some data) => Some data
               | RandomVariable _ _ _ None => lookup name theta
               | Deterministic e _ => eval vs e
               end in
      match v with
      | Some x => forward theta rest (vs ++ [(name, x)])
      | None => None
      end
  end.

Definition values (m : Model) (theta : env) : option env :=
  forward theta (named_vars m) [].

(** The shape and rate handed to the Gamma likelihood called [name],
    evaluated in [vs]. *)
Definition likelihood_params (m : Model) (vs : env) (name : string)
  : option (ndarray * ndarray) :=
  match lookup name (named_vars m) with
  | Some (RandomVariable (Gamma alpha beta) _ _ _) =>
      match eval vs alpha, eval vs beta with
      | Some a, Some b => Some (a, b)
      | _, _ => None
      end
  | _ => None
  end.

(** The model the declaration sequence leaves behind, written out. *)
Definition declared_vars (origin_period development_period
                          observed_rpt_loss observed_paid_loss : ndarray)
  : list (string * node) :=
  let grid := Some [shape origin_period; shape development_period] in
  [ ("log__expected_ult__loss",
       RandomVariable (Normal 0 10) ["origin_period"] None None);
    ("expected_pct_of_ult__rpt_loss",
       RandomVariable (Uniform 0 2) ["development_period"] None None);
    ("expected_pct_of_ult__paid_loss",
       RandomVariable (Uniform 0 (12 / 10)) ["development_period"] None None);
    ("sigma__rpt_loss",
       RandomVariable (HalfNormal 10) ["origin_period"] grid None);
    ("sigma__paid_loss",
       RandomVariable (HalfNormal 10) ["origin_period"] grid None);
    ("expected_ult__loss",
       Deterministic (EExp (EVar "log__expected_ult__loss")) None);
    ("mu__rpt_loss",
       Deterministic (EMul (EVar "expected_ult__loss")
                           (EVar "expected_pct_of_ult__rpt_loss")) grid);
    ("mu__paid_loss",
       Deterministic (EMul (EVar "expected_ult__loss")
                           (EVar "expected_pct_of_ult__paid_loss")) grid);
    ("rpt_loss",
       RandomVariable
         (Gamma (EDiv (EVar "mu__rpt_loss") (EPow (EVar "sigma__rpt_loss") 2))
                (EDiv (EPow (EVar "sigma__rpt_loss") 2) (EVar "mu__rpt_loss")))
         ["origin_period"; "development_period"] None (Some observed_rpt_loss));
    ("paid_loss",
       RandomVariable
         (Gamma (EDiv (EVar "mu__paid_loss") (EPow (EVar "sigma__paid_loss") 2))
                (EDiv (EPow (EVar "sigma__paid_loss") 2) (EVar "mu__paid_loss")))
         ["origin_period"; "development_period"] None (Some observed_paid_loss)) ].

Definition declared_model (origin_period development_period
                           observed_rpt_loss observed_paid_loss : ndarray)
  : Model :=
  {| coords :=
       [ ("origin_period", origin_period);
         ("development_period", development_period);
         ("observed_rpt_loss", observed_rpt_loss);
         ("observed_paid_loss", observed_paid_loss) ];
     named_vars :=
       declared_vars origin_period development_period
                     observed_rpt_loss observed_paid_loss |}.

(** ** Concrete inputs *)

Module Examples.

(** Three origin periods and two development periods, with the two
    triangles of positive entries of the specification's scenario. *)
Definition origin3 : ndarray := vec [2019; 2020; 2021].
Definition dev2 : ndarray := vec [12; 24].
Definition rpt32 : ndarray := mat [[100; 150]; [120; 180]; [90; 140]].
Definition paid32 : ndarray := mat [[80; 130]; [90; 150]; [70; 110]].

(** Two origin periods and two development periods. *)
Definition origin2 : ndarray := vec [2020; 2021].
Definition rpt22 : ndarray := mat [[100; 150]; [120; 180]].
Definition paid22 : ndarray := mat [[80; 130]; [90; 150]].

(** One origin period and one development period. *)
Definition origin1 : ndarray := vec [2020].
Definition dev1 : ndarray := vec [12].
Definition rpt11 : ndarray := mat [[100]].
Definition paid11 : ndarray := mat [[80]].


(** Values of the latent parameters. *)
Definition theta22 : env :=
  [ ("log__expected_ult__loss", vec [0; 1]);
    ("expected_pct_of_ult__rpt_loss", vec [1; 1]);
    ("expected_pct_of_ult__paid_loss", vec [1; 1]);
    ("sigma__rpt_loss", mat [[1; 1]; [1; 1]]);
    ("sigma__paid_loss", mat [[1; 1]; [1; 1]]) ].

Definition theta11 : env :=
  [ ("log__expected_ult__loss", vec [0]);
    ("expected_pct_of_ult__rpt_loss", vec [1 / 2]);
    ("expected_pct_of_ult__paid_loss", vec [1 / 2]);
    ("sigma__rpt_loss", mat [[1]]);
    ("sigma__paid_loss", mat [[1]]) ].

Definition theta32 : env :=
  [ ("log__expected_ult__loss", vec [0; 0; 0]);
    ("expected_pct_of_ult__rpt_loss", vec [1; 1]);
    ("expected_pct_of_ult__paid_loss", vec [1; 1]);
    ("sigma__rpt_loss", mat [[1; 1]; [1; 1]; [1; 1]]);
    ("sigma__paid_loss", mat [[1; 1]; [1; 1]; [1; 1]]) ].

End Examples.


(** The axis names a variable is declared over. *)
Definition dims_of (m : Model) (name : string) : option (list string) :=
  match lookup name (named_vars m) with
  | Some (RandomVariable _ dims _ _) => Some dims
  | _ => None
  end.

(** The expected shape of an observed triangle. *)
Definition triangle_shape (origin_period development_period : ndarray)
  : list nat :=
  [len origin_period; len development_period].

(** The three names of a likelihood term: the term itself, its mean
    variable and its dispersion variable. *)
Definition likelihood_terms : list (string * string * string) :=
  [ ("rpt_loss", "mu__rpt_loss", "sigma__rpt_loss");
    ("paid_loss", "mu__paid_loss", "sigma__paid_loss") ].

(** ** The forward pass over the declared model *)

(** The value environment of the ten variables, in declaration order. *)
Definition declared_values (L Pr Pp Sr Sp Mr Mp rpt paid : ndarray) : env :=
  [ ("log__expected_ult__loss", L);
    ("expected_pct_of_ult__rpt_loss", Pr);
    ("expected_pct_of_ult__paid_loss", Pp);
    ("sigma__rpt_loss", Sr);
    ("sigma__paid_loss", Sp);
    ("expected_ult__loss", map_nd exp L);
    ("mu__rpt_loss", Mr);
    ("mu__paid_loss", Mp);
    ("rpt_loss", rpt);
    ("paid_loss", paid) ].

(** The latent parameters have values and the two products broadcast. *)
Definition evaluates (theta : env) (L Pr Pp Sr Sp Mr Mp : ndarray) : Prop :=
  lookup "log__expected_ult__loss" theta = Some L /\
  lookup "expected_pct_of_ult__rpt_loss" theta = Some Pr /\
  lookup "expected_pct_of_ult__paid_loss" theta = Some Pp /\
  lookup "sigma__rpt_loss" theta = Some Sr /\
  lookup "sigma__paid_loss" theta = Some Sp /\
  elemwise Rmult (map_nd exp L) Pr = Some Mr /\
  elemwise Rmult (map_nd exp L) Pp = Some Mp.

(** ** Inputs the specification calls valid *)

(** Both axes are one-dimensional with at least one label, and both
    triangles have the shape of the grid and positive entries. *)
Definition valid_input (origin dev rpt paid : ndarray) : Prop :=
  shape origin = [len origin] /\ shape dev = [len dev] /\
  (1 <= len origin)%nat /\ (1 <= len dev)%nat /\
  shape rpt = triangle_shape origin dev /\
  shape paid = triangle_shape origin dev /\
  (forall o d, (o < len origin)%nat -> (d < len dev)%nat ->
               0 < item rpt [o; d] /\ 0 < item paid [o; d]).

(** ** The structure of a model *)



Definition mem (x : string) (l : list string) : bool :=
  existsb (String.eqb x) l.


(** One origin period and three development periods. *)
Definition dev3 : ndarray := vec [12; 24; 36].
Definition rpt13 : ndarray := mat [[100; 150; 160]].
Definition paid13 : ndarray := mat [[80; 130; 150]].

(** * The call against a library

    The function is written against a library that is not part of the
    repository. What the library exports and which calls it accepts is
    taken as a parameter: a call of the function is followed through the
    import line, the binding of the arguments and every library call of
    the body, each of which can end it. *)

(** ** Python values *)

(** An argument as the caller may pass it: a list, a list of rows, or an
    array. Only an array has a [.shape]. *)
Inductive pyobj : Type :=
| PyList (l : list R)
| PyRows (rows : list (list R))
| PyArray (a : ndarray).

(** The array the library makes of an argument it is given as data. *)
Definition as_array (x : pyobj) : ndarray :=
  match x with
  | PyList l => vec l
  | PyRows rows => mat rows
  | PyArray a => a
  end.

(** ** The library *)

(** What a library callable is handed that it may decide on: who is
    called, the keywords used, the value of [shape=] and the data of
    [observed=]. *)
Record call : Type := mk_call {
  callee : string;
  keywords : list string;
  shape_value : option shape_arg;
  observed_value : option ndarray
}.

Record library : Type := mk_library {
  exports : string -> string -> bool;
  accepts : call -> bool
}.

(** A library that exports every name and accepts every call. *)
Definition accepting_library : library :=
  {| exports := fun _ _ => true; accepts := fun _ => true |}.

(** The library released as [pymc] (version 4 and later), at the points
    where the function meets it: [pymc.distributions] does not export
    [Deterministic]; no distribution takes the keyword [sd]; a [shape]
    whose components are tuples is not a shape; [Deterministic] takes no
    [shape]. *)
Definition pymc_library : library :=
  {| exports := fun module name =>
       negb (String.eqb module "pymc.distributions"
             && String.eqb name "Deterministic");
     accepts := fun c =>
       negb (mem "sd" (keywords c))
       && negb (String.eqb (callee c) "Deterministic"
                && mem "shape" (keywords c))
       && match shape_value c with
          | Some _ => false
          | None => true
          end |}.

(** [pymc_library] with the import line repaired. *)
Definition pymc_library_importable : library :=
  {| exports := fun _ _ => true; accepts := accepts pymc_library |}.

(** The names the function's parameters bind. *)
Definition parameter_names : list string :=
  [ "origin_period"; "development_period";
    "observed_rpt_loss"; "observed_paid_loss" ].

(** Binding of [**kwargs]: a keyword that names a parameter already
    bound, or that comes twice, ends the call before the body runs. *)
Fixpoint bind_kwargs (bound : list string) (kwargs : kwargs_t)
  : result unit :=
  match kwargs with
  | [] => Ok tt
  | (k, _) :: rest =>
      if mem k bound then Err (MultipleValues k)
      else bind_kwargs (k :: bound) rest
  end.

(** The calls the body makes, as the library sees them. *)
Definition Model_call : call :=
  {| callee := "Model"; keywords := ["coords"];
     shape_value := None; observed_value := None |}.

Definition Normal_call : call :=
  {| callee := "Normal"; keywords := ["mu"; "sd"; "dims"];
     shape_value := None; observed_value := None |}.

Definition Uniform_call : call :=
  {| callee := "Uniform"; keywords := ["lower"; "upper"; "dims"];
     shape_value := None; observed_value := None |}.

Definition HalfNormal_call (shp : shape_arg) : call :=
  {| callee := "HalfNormal"; keywords := ["sd"; "dims"; "shape"];
     shape_value := Some shp; observed_value := None |}.

Definition Deterministic_call (shp : option shape_arg) : call :=
  {| callee := "Deterministic";
     keywords := match shp with Some _ => ["shape"] | None => [] end;
     shape_value := shp; observed_value := None |}.

Definition Gamma_call (obs : ndarray) : call :=
  {| callee := "Gamma"; keywords := ["alpha"; "beta"; "observed"; "dims"];
     shape_value := None; observed_value := Some obs |}.

(** The names line 2 imports from [pymc.distributions]. *)
Definition imported_names : list string :=
  [ "Gamma"; "Normal"; "Uniform"; "HalfNormal"; "Deterministic" ].

Definition imports_resolve (lib : library) : bool :=
  forallb (exports lib "pymc.distributions") imported_names.

Definition kwargs_bind (kwargs : kwargs_t) : bool :=
  match bind_kwargs parameter_names kwargs with
  | Ok _ => true
  | Err _ => false
  end.

Module WithLibrary.

Section Library.

Variable lib : library.

(** [from module import names]: the first name the module does not
    export ends the import. *)
Definition import_from (module : string) (names : list string)
  : result unit :=
  match find (fun n => negb (exports lib module n)) names with
  | Some n => Err (ImportError module n)
  | None => Ok tt
  end.

(** A library callable that registers a node: it first decides on the
    call, then registers. *)
Definition construct (c : call) (name : string) (n : node) : builder expr :=
  fun m => if accepts lib c then register name n m
           else Err (Refused (callee c)).

(** [d[key]] on the dictionary of the arguments. *)
Definition getitem (d : list (string * pyobj)) (key : string)
  : builder pyobj :=
  fun m => match lookup key d with
           | Some v => Ok (v, m)
           | None => Err (KeyError key)
           end.

(** [x.shape]. *)
Definition shape_of (x : pyobj) : builder (list nat) :=
  fun m => match x with
           | PyArray a => Ok (shape a, m)
           | _ => Err (AttributeError "shape")
           end.

(** [with pm.Model(coords=coords) as model: body; return model]. *)
Definition with_Model {A : Type} (cs : list (string * pyobj))
           (body : builder A) : result Model :=
  if accepts lib Model_call then
    match body {| coords := map (fun kv => (fst kv, as_array (snd kv))) cs;
                  named_vars := [] |} with
    | Ok (_, m) => Ok m
    | Err e => Err e
    end
  else Err (Refused "Model").

(** The body of the function, lines 8 to 94. *)
Definition body
  (origin_period development_period observed_rpt_loss observed_paid_loss : pyobj)
  : result Model :=
  let coords :=
    [ ("origin_period", origin_period);
      ("development_period", development_period);
      ("observed_rpt_loss", observed_rpt_loss);
      ("observed_paid_loss", observed_paid_loss) ] in
  with_Model coords (
    (* ---- priors ---- *)
    log__expected_ult__loss <-
      construct Normal_call "log__expected_ult__loss"
        (RandomVariable (Normal 0 10) ["origin_period"] None None) ;;
    expected_pct_of_ult__rpt_loss <-
      construct Uniform_call "expected_pct_of_ult__rpt_loss"
        (RandomVariable (Uniform 0 2) ["development_period"] None None) ;;
    expected_pct_of_ult__paid_loss <-
      construct Uniform_call "expected_pct_of_ult__paid_loss"
        (RandomVariable (Uniform 0 (12 / 10)) ["development_period"] None None) ;;
    o1 <- getitem coords "origin_period" ;;
    so1 <- shape_of o1 ;;
    d1 <- getitem coords "development_period" ;;
    sd1 <- shape_of d1 ;;
    sigma__rpt_loss <-
      construct (HalfNormal_call [so1; sd1]) "sigma__rpt_loss"
        (RandomVariable (HalfNormal 10) ["origin_period"]
                        (Some [so1; sd1]) None) ;;
    o2 <- getitem coords "origin_period" ;;
    so2 <- shape_of o2 ;;
    d2 <- getitem coords "development_period" ;;
    sd2 <- shape_of d2 ;;
    sigma__paid_loss <-
      construct (HalfNormal_call [so2; sd2]) "sigma__paid_loss"
        (RandomVariable (HalfNormal 10) ["origin_period"]
                        (Some [so2; sd2]) None) ;;
    (* ---- deterministic variables ---- *)
    expected_ult__loss <-
      construct (Deterministic_call None) "expected_ult__loss"
        (Deterministic (EExp log__expected_ult__loss) None) ;;
    o3 <- getitem coords "origin_period" ;;
    so3 <- shape_of o3 ;;
    d3 <- getitem coords "development_period" ;;
    sd3 <- shape_of d3 ;;
    mu__rpt_loss <-
      construct (Deterministic_call (Some [so3; sd3])) "mu__rpt_loss"
        (Deterministic (EMul expected_ult__loss expected_pct_of_ult__rpt_loss)
                       (Some [so3; sd3])) ;;
    o4 <- getitem coords "origin_period" ;;
    so4 <- shape_of o4 ;;
    d4 <- getitem coords "development_period" ;;
    sd4 <- shape_of d4 ;;
    mu__paid_loss <-
      construct (Deterministic_call (Some [so4; sd4])) "mu__paid_loss"
        (Deterministic (EMul expected_ult__loss expected_pct_of_ult__paid_loss)
                       (Some [so4; sd4])) ;;
    (* ---- likelihood ---- *)
    obs_rpt <- getitem coords "observed_rpt_loss" ;;
    rpt_loss <-
      construct (Gamma_call (as_array obs_rpt)) "rpt_loss"
        (RandomVariable
           (Gamma (EDiv mu__rpt_loss (EPow sigma__rpt_loss 2))
                  (EDiv (EPow sigma__rpt_loss 2) mu__rpt_loss))
           ["origin_period"; "development_period"] None
           (Some (as_array obs_rpt))) ;;
    obs_paid <- getitem coords "observed_paid_loss" ;;
    paid_loss <-
      construct (Gamma_call (as_array obs_paid)) "paid_loss"
        (RandomVariable
           (Gamma (EDiv mu__paid_loss (EPow sigma__paid_loss 2))
                  (EDiv (EPow sigma__paid_loss 2) mu__paid_loss))
           ["origin_period"; "development_period"] None
           (Some (as_array obs_paid))) ;;
    ret tt).

(** A call of the function of the module: the import line of the module
    (line 2), the binding of the arguments (lines 5 to 7), the body. *)
Definition single_level_paid_rpt_loss_model
  (origin_period development_period observed_rpt_loss observed_paid_loss : pyobj)
  (kwargs : kwargs_t) : result Model :=
  match import_from "pymc.distributions" imported_names with
  | Err e => Err e
  | Ok _ =>
      match bind_kwargs parameter_names kwargs with
      | Err e => Err e
      | Ok _ =>
          body origin_period development_period
               observed_rpt_loss observed_paid_loss
      end
  end.

End Library.

End WithLibrary.

(** The calls a run of the body puts to the library, for axes of shapes
    [so] and [sd] and the two triangles. *)
Definition calls_made (so sd : list nat) (rpt paid : ndarray) : list call :=
  [ Model_call; Normal_call; Uniform_call; Uniform_call;
    HalfNormal_call [so; sd]; HalfNormal_call [so; sd];
    Deterministic_call None;
    Deterministic_call (Some [so; sd]); Deterministic_call (Some [so; sd]);
    Gamma_call rpt; Gamma_call paid ].

(** * Evaluation in any arithmetic

    The tensor operators compute in the arithmetic of the tensor library
    (64-bit floating point). The expressions of the model are evaluated
    here over an arbitrary arithmetic, of which the real numbers and the
    binary64 numbers are two instances. *)

Module Numeric.

(** The four operations the expressions use. *)
Record arithmetic (num : Type) : Type := mk_arithmetic {
  mul  : num -> num -> num;
  div  : num -> num -> num;
  exp_ : num -> num;
  pow_ : num -> nat -> num
}.
Arguments mul {num} a x y.
Arguments div {num} a x y.
Arguments exp_ {num} a x.
Arguments pow_ {num} a x k.

Record tensor (num : Type) : Type := mk_tensor {
  t_shape : list nat;
  t_item  : list nat -> num
}.
Arguments mk_tensor {num} t_shape t_item.
Arguments t_shape {num} t.
Arguments t_item {num} t idx.

Section Evaluation.

Variable num : Type.
Variable ar : arithmetic num.

(** The entry of [a] seen at [idx] after broadcasting. *)
Definition get (a : tensor num) (idx : list nat) : num :=
  t_item a (bidx (t_shape a) idx).

Definition elemwise (f : num -> num -> num) (a b : tensor num)
  : option (tensor num) :=
  match broadcast_shapes (t_shape a) (t_shape b) with
  | Some s =>
      Some {| t_shape := s; t_item := fun idx => f (get a idx) (get b idx) |}
  | None => None
  end.

Definition map_tensor (f : num -> num) (a : tensor num) : tensor num :=
  {| t_shape := t_shape a; t_item := fun idx => f (t_item a idx) |}.

Definition env : Type := list (string * tensor num).

Fixpoint eval (vs : env) (e : expr) : option (tensor num) :=
  match e with
  | EVar name => lookup name vs
  | EExp a => option_map (map_tensor (exp_ ar)) (eval vs a)
  | EMul a b =>
      match eval vs a, eval vs b with
      | Some x, Some y => elemwise (mul ar) x y
      | _, _ => None
      end
  | EDiv a b =>
      match eval vs a, eval vs b with
      | Some x, Some y => elemwise (div ar) x y
      | _, _ => None
      end
  | EPow a k => option_map (map_tensor (fun x => pow_ ar x k)) (eval vs a)
  end.

(** The value of the deterministic variable called [name]. *)
Definition deterministic_value (m : Model) (vs : env) (name : string)
  : option (tensor num) :=
  match lookup name (named_vars m) with
  | Some (Deterministic e _) => eval vs e
  | _ => None
  end.

(** The shape and rate handed to the Gamma likelihood called [name]. *)
Definition likelihood_params (m : Model) (vs : env) (name : string)
  : option (tensor num * tensor num) :=
  match lookup name (named_vars m) with
  | Some (RandomVariable (Gamma alpha beta) _ _ _) =>
      match eval vs alpha, eval vs beta with
      | Some a, Some b => Some (a, b)
      | _, _ => None
      end
  | _ => None
  end.

End Evaluation.

Arguments get {num} a idx.
Arguments elemwise {num} f a b.
Arguments map_tensor {num} f a.
Arguments eval {num} ar vs e.
Arguments deterministic_value {num} ar m vs name.
Arguments likelihood_params {num} ar m vs name.

(** A tensor of shape (1, 1) holding [x], a vector and a matrix. *)
Definition cell {num : Type} (x : num) : tensor num :=
  {| t_shape := [1%nat; 1%nat]; t_item := fun _ => x |}.

Definition vector {num : Type} (default : num) (l : list num) : tensor num :=
  {| t_shape := [List.length l];
     t_item := fun idx => nth (hd 0%nat idx) l default |}.

Definition matrix {num : Type} (default : num) (rows : list (list num))
  : tensor num :=
  {| t_shape := [List.length rows; List.length (hd [] rows)];
     t_item := fun idx =>
                 nth (nth 1 idx 0%nat) (nth (hd 0%nat idx) rows []) default |}.

(** The real numbers. *)
Definition real : arithmetic R :=
  {| mul := Rmult; div := Rdiv; exp_ := exp; pow_ := pow |}.

(** The binary64 numbers, with correctly rounded product and quotient
    and the power by repeated product; the exponential is whatever the
    library's is. *)
Definition binary64 (fexp : float -> float) : arithmetic float :=
  {| mul := PrimFloat.mul;
     div := PrimFloat.div;
     exp_ := fexp;
     pow_ := fun x k => Nat.iter k (PrimFloat.mul x) 1%float |}.

(** An array read as a tensor of real numbers. *)
Definition of_ndarray (a : ndarray) : tensor R :=
  {| t_shape := shape a; t_item := item a |}.

End Numeric.

(** Values for the mean and the dispersion of both likelihood terms, over
    the real numbers and over the binary64 numbers. *)
Definition real_cells : Numeric.env R :=
  [ ("mu__rpt_loss", Numeric.vector 0 [3; 5]);
    ("sigma__rpt_loss", Numeric.matrix 0 [[1; 2]; [4; 1 / 2]]);
    ("mu__paid_loss", Numeric.vector 0 [2; 6]);
    ("sigma__paid_loss", Numeric.matrix 0 [[2; 1]; [1; 3]]) ].

Definition float_cells : Numeric.env float :=
  [ ("mu__rpt_loss", Numeric.cell 3%float);
    ("sigma__rpt_loss", Numeric.cell 7%float);
    ("mu__paid_loss", Numeric.cell 3%float);
    ("sigma__paid_loss", Numeric.cell 7%float) ].

(** Values for the two factors of the mean of the reported losses, on a
    grid of two origins and two developments, on one of three origins
    and two developments, and on one of a single origin and three
    developments. *)
Definition factors22 : Numeric.env R :=
  [ ("expected_ult__loss", Numeric.vector 0 [2; 3]);
    ("expected_pct_of_ult__rpt_loss", Numeric.vector 0 [1 / 2; 1]);
    ("expected_pct_of_ult__paid_loss", Numeric.vector 0 [1 / 4; 1 / 2]) ].

Definition factors32 : Numeric.env R :=
  [ ("expected_ult__loss", Numeric.vector 0 [2; 3; 4]);
    ("expected_pct_of_ult__rpt_loss", Numeric.vector 0 [1 / 2; 1]);
    ("expected_pct_of_ult__paid_loss", Numeric.vector 0 [1 / 4; 1 / 2]) ].

Definition factors13 : Numeric.env R :=
  [ ("expected_ult__loss", Numeric.vector 0 [2]);
    ("expected_pct_of_ult__rpt_loss", Numeric.vector 0 [1 / 4; 1 / 2; 1]);
    ("expected_pct_of_ult__paid_loss", Numeric.vector 0 [1 / 8; 1 / 4; 1 / 2]) ].

(** The two means with the percentage each multiplies. *)
Definition mean_terms : list (string * string) :=
  [ ("mu__rpt_loss", "expected_pct_of_ult__rpt_loss");
    ("mu__paid_loss", "expected_pct_of_ult__paid_loss") ].

(** * Properties *)

(** ** Construction *)

(** No registration and no dictionary access of the sequence fails: the
    ten names are pairwise distinct and the four keys are those of
    [coords]. *)
Lemma construction_returns_declared_model :
  forall origin_period development_period observed_rpt_loss observed_paid_loss kwargs,
    single_level_paid_rpt_loss_model
      origin_period development_period observed_rpt_loss observed_paid_loss kwargs
    = Ok (declared_model origin_period development_period
                         observed_rpt_loss observed_paid_loss).
Proof.
  intros. reflexivity.
Qed.

(** ** Broadcasting on small shapes *)

Example bidx_vector_in_grid : bidx [2%nat] [0%nat; 1%nat] = [1%nat].
Proof. reflexivity. Qed.

Example bidx_matrix_in_grid :
  bidx [2%nat; 2%nat] [0%nat; 1%nat] = [0%nat; 1%nat].
Proof. reflexivity. Qed.

Example bidx_stretched_axis :
  bidx [1%nat; 2%nat] [1%nat; 1%nat] = [0%nat; 1%nat].
Proof. reflexivity. Qed.

Example broadcast_3_2 : broadcast_shapes [3%nat] [2%nat] = None.
Proof. reflexivity. Qed.

Example broadcast_2_22 :
  broadcast_shapes [2%nat] [2%nat; 2%nat] = Some [2%nat; 2%nat].
Proof. reflexivity. Qed.

Example broadcast_31_2 :
  broadcast_shapes [3%nat; 1%nat] [2%nat] = Some [3%nat; 2%nat].
Proof. reflexivity. Qed.

(** ** The forward pass, inverted *)

Lemma values_inv :
  forall origin dev rpt paid theta vs,
    values (declared_model origin dev rpt paid) theta = Some vs ->
    exists L Pr Pp Sr Sp Mr Mp,
      evaluates theta L Pr Pp Sr Sp Mr Mp /\
      vs = declared_values L Pr Pp Sr Sp Mr Mp rpt paid.
Proof.
  intros origin dev rpt paid theta vs H.
  unfold values in H. cbn in H.
  destruct (lookup "log__expected_ult__loss" theta) as [L|] eqn:HL;
    [|discriminate].
  destruct (lookup "expected_pct_of_ult__rpt_loss" theta) as [Pr|] eqn:HPr;
    [|discriminate].
  destruct (lookup "expected_pct_of_ult__paid_loss" theta) as [Pp|] eqn:HPp;
    [|discriminate].
  destruct (lookup "sigma__rpt_loss" theta) as [Sr|] eqn:HSr; [|discriminate].
  destruct (lookup "sigma__paid_loss" theta) as [Sp|] eqn:HSp; [|discriminate].
  cbn in H.
  destruct (elemwise Rmult (map_nd exp L) Pr) as [Mr|] eqn:HMr; [|discriminate].
  cbn in H.
  destruct (elemwise Rmult (map_nd exp L) Pp) as [Mp|] eqn:HMp; [|discriminate].
  cbn in H. injection H as <-.
  exists L, Pr, Pp, Sr, Sp, Mr, Mp.
  split; [repeat split; assumption | reflexivity].
Qed.

Lemma values_intro :
  forall origin dev rpt paid theta L Pr Pp Sr Sp Mr Mp,
    evaluates theta L Pr Pp Sr Sp Mr Mp ->
    values (declared_model origin dev rpt paid) theta
    = Some (declared_values L Pr Pp Sr Sp Mr Mp rpt paid).
Proof.
  intros origin dev rpt paid theta L Pr Pp Sr Sp Mr Mp
         (HL & HPr & HPp & HSr & HSp & HMr & HMp).
  unfold values. cbn.
  rewrite HL, HPr, HPp, HSr, HSp. cbn.
  rewrite HMr. cbn. rewrite HMp. reflexivity.
Qed.

(** Reading an elementwise result. *)
Lemma elemwise_item :
  forall f a b c idx,
    elemwise f a b = Some c -> item c idx = f (get a idx) (get b idx).
Proof.
  intros f a b c idx H. unfold elemwise in H.
  destruct (broadcast_shapes (shape a) (shape b)); [|discriminate].
  injection H as <-. reflexivity.
Qed.

Lemma map_nd_get :
  forall f a idx, get (map_nd f a) idx = f (get a idx).
Proof. reflexivity. Qed.

Lemma scenario_is_valid :
  valid_input Examples.origin3 Examples.dev2 Examples.rpt32 Examples.paid32.
Proof.
  unfold valid_input. repeat split; try reflexivity; cbn; try lia.
  - destruct o as [|[|[|o]]]; destruct d as [|[|d]]; cbn in *; try lia; lra.
  - destruct o as [|[|[|o]]]; destruct d as [|[|d]]; cbn in *; try lia; lra.
Qed.

(** ** Prior declarations *)

(** The priors of the three vector parameters: Normal(0, sd 10) over the
    origin axis, Uniform(0, 2) and Uniform(0, 1.2) over the development
    axis. *)
Lemma vector_priors_declared :
  forall origin dev rpt paid kwargs,
  exists m,
    single_level_paid_rpt_loss_model origin dev rpt paid kwargs = Ok m /\
    lookup "log__expected_ult__loss" (named_vars m)
    = Some (RandomVariable (Normal 0 10) ["origin_period"] None None) /\
    lookup "expected_pct_of_ult__rpt_loss" (named_vars m)
    = Some (RandomVariable (Uniform 0 2) ["development_period"] None None) /\
    lookup "expected_pct_of_ult__paid_loss" (named_vars m)
    = Some (RandomVariable (Uniform 0 (12 / 10)) ["development_period"] None None) /\
    lookup "origin_period" (coords m) = Some origin /\
    lookup "development_period" (coords m) = Some dev.
Proof.
  intros. eexists. split; [apply construction_returns_declared_model|].
  repeat split; reflexivity.
Qed.

(** The priors of the two dispersion parameters, as declared:
    HalfNormal(sd 10), over the origin axis alone, with a shape argument
    that pairs the two axes' shape tuples. *)
Lemma dispersion_priors_declared :
  forall origin dev rpt paid kwargs,
  exists m,
    single_level_paid_rpt_loss_model origin dev rpt paid kwargs = Ok m /\
    lookup "sigma__rpt_loss" (named_vars m)
    = Some (RandomVariable (HalfNormal 10) ["origin_period"]
                           (Some [shape origin; shape dev]) None) /\
    lookup "sigma__paid_loss" (named_vars m)
    = Some (RandomVariable (HalfNormal 10) ["origin_period"]
                           (Some [shape origin; shape dev]) None).
Proof.
  intros. eexists. split; [apply construction_returns_declared_model|].
  split; reflexivity.
Qed.

(** C5, the code at the scenario input (three origin periods, two
    development periods): the three vector priors are as the claim says,
    but sigma__rpt_loss and sigma__paid_loss are declared over the origin
    axis alone and with the shape argument ((3,), (2,)), whereas the
    likelihood terms they enter are declared over the origin and the
    development axes: the dispersion parameters are not declared as one
    value per cell of the 3 x 2 grid. *)
Theorem scenario_dispersion_dims :
  exists m,
    single_level_paid_rpt_loss_model
      Examples.origin3 Examples.dev2 Examples.rpt32 Examples.paid32 []
    = Ok m /\
    lookup "sigma__rpt_loss" (named_vars m)
    = Some (RandomVariable (HalfNormal 10) ["origin_period"]
                           (Some [[3%nat]; [2%nat]]) None) /\
    lookup "sigma__paid_loss" (named_vars m)
    = Some (RandomVariable (HalfNormal 10) ["origin_period"]
                           (Some [[3%nat]; [2%nat]]) None) /\
    dims_of m "rpt_loss" = Some ["origin_period"; "development_period"] /\
    dims_of m "paid_loss" = Some ["origin_period"; "development_period"] /\
    dims_of m "sigma__rpt_loss" <> dims_of m "rpt_loss" /\
    dims_of m "sigma__paid_loss" <> dims_of m "paid_loss".
Proof.
  eexists. split; [apply construction_returns_declared_model|].
  repeat split; try reflexivity; cbn; discriminate.
Qed.

(** ** The deterministic variables *)

(** What the forward pass computes for the three deterministic
    variables: the exponential entry by entry, and the elementwise
    (broadcast) product of the two vectors. *)
Lemma deterministic_values :
  forall origin dev rpt paid kwargs m theta vs,
    single_level_paid_rpt_loss_model origin dev rpt paid kwargs = Ok m ->
    values m theta = Some vs ->
    exists L Pr Pp E Mr Mp,
      lookup "log__expected_ult__loss" vs = Some L /\
      lookup "expected_pct_of_ult__rpt_loss" vs = Some Pr /\
      lookup "expected_pct_of_ult__paid_loss" vs = Some Pp /\
      lookup "expected_ult__loss" vs = Some E /\
      lookup "mu__rpt_loss" vs = Some Mr /\
      lookup "mu__paid_loss" vs = Some Mp /\
      shape E = shape L /\
      (forall idx, item E idx = exp (item L idx)) /\
      (forall idx, item Mr idx = get E idx * get Pr idx) /\
      (forall idx, item Mp idx = get E idx * get Pp idx).
Proof.
  intros origin dev rpt paid kwargs m theta vs Hm Hv.
  rewrite construction_returns_declared_model in Hm. injection Hm as <-.
  apply values_inv in Hv.
  destruct Hv as (L & Pr & Pp & Sr & Sp & Mr & Mp & Hev & ->).
  destruct Hev as (_ & _ & _ & _ & _ & HMr & HMp).
  exists L, Pr, Pp, (map_nd exp L), Mr, Mp.
  repeat split; try reflexivity.
  - intro idx. apply (elemwise_item _ _ _ _ idx HMr).
  - intro idx. apply (elemwise_item _ _ _ _ idx HMp).
Qed.

Lemma broadcast_shapes_vectors_same :
  forall n, broadcast_shapes [n] [n] = Some [n].
Proof.
  intro n. unfold broadcast_shapes. cbn. rewrite Nat.eqb_refl. reflexivity.
Qed.

Lemma broadcast_shapes_vectors_differ :
  forall a b,
    (2 <= a)%nat -> (2 <= b)%nat -> a <> b ->
    broadcast_shapes [a] [b] = None.
Proof.
  intros a b Ha Hb Hne. unfold broadcast_shapes. cbn.
  destruct (a =? b)%nat eqn:Heq; [apply Nat.eqb_eq in Heq; lia|].
  destruct (a =? 1)%nat eqn:H1; [apply Nat.eqb_eq in H1; lia|].
  destruct (b =? 1)%nat eqn:H2; [apply Nat.eqb_eq in H2; lia|].
  reflexivity.
Qed.

(** The product of a vector over origins and a vector over developments
    of the same length (at least 2) is the vector of the products entry
    by entry; seen from the grid, its cell (o, d) is entry d. *)
Lemma product_of_vectors_same_length :
  forall (l p : list R) o d,
    (2 <= List.length l)%nat ->
    List.length p = List.length l ->
    exists M,
      elemwise Rmult (map_nd exp (vec l)) (vec p) = Some M /\
      shape M = [List.length l] /\
      get M [o; d] = exp (nth d l 0) * nth d p 0.
Proof.
  intros l p o d Hl Hp. unfold elemwise.
  change (shape (map_nd exp (vec l))) with [List.length l].
  change (shape (vec p)) with [List.length p].
  rewrite Hp, broadcast_shapes_vectors_same.
  eexists. split; [reflexivity|]. split; [reflexivity|].
  unfold get.
  change (shape (map_nd exp (vec l))) with [List.length l].
  change (shape (vec p)) with [List.length p].
  rewrite Hp.
  destruct (List.length l) as [|[|n]] eqn:Hn; [lia | lia |].
  reflexivity.
Qed.

(** With lengths that differ, both at least 2, the product has no
    value: the two shapes do not broadcast. *)
Lemma product_of_vectors_different_length :
  forall (l p : list R),
    (2 <= List.length l)%nat ->
    (2 <= List.length p)%nat ->
    List.length l <> List.length p ->
    elemwise Rmult (map_nd exp (vec l)) (vec p) = None.
Proof.
  intros l p Hl Hp Hne. unfold elemwise.
  change (shape (map_nd exp (vec l))) with [List.length l].
  change (shape (vec p)) with [List.length p].
  rewrite (broadcast_shapes_vectors_differ _ _ Hl Hp Hne). reflexivity.
Qed.

(** For two vectors of the same length, the product seen at cell (o, d)
    is the product per cell only where the two origins have the same
    logarithm or the percentage vanishes. *)
Lemma product_of_vectors_not_per_cell :
  forall (l p : list R) o d,
    (2 <= List.length l)%nat ->
    List.length p = List.length l ->
    nth o l 0 <> nth d l 0 ->
    nth d p 0 <> 0 ->
    exists M,
      elemwise Rmult (map_nd exp (vec l)) (vec p) = Some M /\
      get M [o; d] <> exp (nth o l 0) * nth d p 0.
Proof.
  intros l p o d Hl Hp Hne Hp0.
  destruct (product_of_vectors_same_length l p o d Hl Hp) as (M & HM & _ & Hg).
  exists M. split; [exact HM|].
  rewrite Hg. intro Heq.
  apply Rmult_eq_reg_r in Heq; [|exact Hp0].
  apply exp_inv in Heq. apply Hne. symmetry. exact Heq.
Qed.

(** The first part of C4 holds: expected_ult__loss is the exponential of
    log__expected_ult__loss, origin by origin. *)
Lemma expected_ultimate_is_exponential :
  forall origin dev rpt paid kwargs m theta vs,
    single_level_paid_rpt_loss_model origin dev rpt paid kwargs = Ok m ->
    values m theta = Some vs ->
    exists L E,
      lookup "log__expected_ult__loss" vs = Some L /\
      lookup "expected_ult__loss" vs = Some E /\
      forall o, get E [o] = exp (get L [o]).
Proof.
  intros origin dev rpt paid kwargs m theta vs Hm Hv.
  destruct (deterministic_values _ _ _ _ _ _ _ _ Hm Hv)
    as (L & Pr & Pp & E & Mr & Mp & HL & _ & _ & HE & _ & _ & Hs & Hi & _).
  exists L, E. repeat split; try assumption.
  intro o. unfold get. rewrite Hs. apply Hi.
Qed.

(** C4, the code at a failing input: two origin periods, two development
    periods, log__expected_ult__loss = [0, 1] and both percentage vectors
    [1, 1]. The forward pass succeeds; expected_ult__loss[0] = exp 0 = 1
    and the percentages at development 1 are 1, so the claim asks for
    mu[0,1] = 1 for both means, while the code's products are taken entry
    by entry along one axis and give mu[0,1] = exp 1 * 1. *)
Theorem mean_is_not_product_per_cell :
  exists m vs E Pr Pp Mr Mp,
    single_level_paid_rpt_loss_model
      Examples.origin2 Examples.dev2 Examples.rpt22 Examples.paid22 []
    = Ok m /\
    values m Examples.theta22 = Some vs /\
    lookup "expected_ult__loss" vs = Some E /\
    lookup "expected_pct_of_ult__rpt_loss" vs = Some Pr /\
    lookup "expected_pct_of_ult__paid_loss" vs = Some Pp /\
    lookup "mu__rpt_loss" vs = Some Mr /\
    lookup "mu__paid_loss" vs = Some Mp /\
    get E [0%nat] * get Pr [1%nat] = 1 /\
    get E [0%nat] * get Pp [1%nat] = 1 /\
    get Mr [0%nat; 1%nat] = exp 1 * 1 /\
    get Mp [0%nat; 1%nat] = exp 1 * 1 /\
    get Mr [0%nat; 1%nat] <> get E [0%nat] * get Pr [1%nat] /\
    get Mp [0%nat; 1%nat] <> get E [0%nat] * get Pp [1%nat].
Proof.
  assert (He : exp 1 * 1 <> exp 0 * 1).
  { rewrite exp_0. pose proof (exp_ineq1 1 R1_neq_R0). lra. }
  do 7 eexists.
  split; [apply construction_returns_declared_model|].
  split; [reflexivity|].
  do 5 (split; [reflexivity|]).
  split; [unfold get; cbn; rewrite exp_0; lra|].
  split; [unfold get; cbn; rewrite exp_0; lra|].
  split; [reflexivity|]. split; [reflexivity|].
  split; exact He.
Qed.

(** On the scenario of three origin periods and two development periods
    the two means have no value at all: a vector of three and a vector of
    two do not broadcast, whatever the values of the parameters. *)
Lemma scenario_means_do_not_evaluate :
  forall (l p : list R) theta,
    List.length l = 3%nat -> List.length p = 2%nat ->
    lookup "log__expected_ult__loss" theta = Some (vec l) ->
    lookup "expected_pct_of_ult__rpt_loss" theta = Some (vec p) ->
    values (declared_model Examples.origin3 Examples.dev2
                           Examples.rpt32 Examples.paid32) theta
    = None.
Proof.
  intros l p theta Hl Hp HL HP.
  destruct (values _ theta) as [vs|] eqn:Hv; [|reflexivity].
  apply values_inv in Hv.
  destruct Hv as (L & Pr & Pp & Sr & Sp & Mr & Mp & Hev & _).
  destruct Hev as (HL' & HP' & _ & _ & _ & HMr & _).
  rewrite HL in HL'. injection HL' as <-.
  rewrite HP in HP'. injection HP' as <-.
  rewrite product_of_vectors_different_length in HMr by lia.
  discriminate HMr.
Qed.

(** ** The Gamma likelihood parameters *)

(** The two likelihood terms as declared: shape mu / sigma ** 2 and rate
    sigma ** 2 / mu over the mean and dispersion variables, observed at
    the triangles, over the origin and development axes. *)
Lemma likelihood_terms_declared :
  forall origin dev rpt paid kwargs,
  exists m,
    single_level_paid_rpt_loss_model origin dev rpt paid kwargs = Ok m /\
    lookup "rpt_loss" (named_vars m)
    = Some (RandomVariable
              (Gamma (EDiv (EVar "mu__rpt_loss") (EPow (EVar "sigma__rpt_loss") 2))
                     (EDiv (EPow (EVar "sigma__rpt_loss") 2) (EVar "mu__rpt_loss")))
              ["origin_period"; "development_period"] None (Some rpt)) /\
    lookup "paid_loss" (named_vars m)
    = Some (RandomVariable
              (Gamma (EDiv (EVar "mu__paid_loss") (EPow (EVar "sigma__paid_loss") 2))
                     (EDiv (EPow (EVar "sigma__paid_loss") 2) (EVar "mu__paid_loss")))
              ["origin_period"; "development_period"] None (Some paid)).
Proof.
  intros. eexists. split; [apply construction_returns_declared_model|].
  split; reflexivity.
Qed.

(** C3, the code at a failing input: one origin period and one
    development period, log__expected_ult__loss = [0], both percentages
    [1/2] and both dispersions [[1]]. Both means are 1/2 at cell (0, 0),
    positive like the dispersions, and for both likelihood terms the
    shape divided by the rate is 1/4 there, not the mean. *)
Theorem implied_mean_differs_from_mu :
  exists m vs Ar Br Ap Bp Mr Mp,
    single_level_paid_rpt_loss_model
      Examples.origin1 Examples.dev1 Examples.rpt11 Examples.paid11 []
    = Ok m /\
    values m Examples.theta11 = Some vs /\
    likelihood_params m vs "rpt_loss" = Some (Ar, Br) /\
    likelihood_params m vs "paid_loss" = Some (Ap, Bp) /\
    lookup "mu__rpt_loss" vs = Some Mr /\
    lookup "mu__paid_loss" vs = Some Mp /\
    get Mr [0%nat; 0%nat] = 1 / 2 /\
    get Mp [0%nat; 0%nat] = 1 / 2 /\
    item Ar [0%nat; 0%nat] / item Br [0%nat; 0%nat] = 1 / 4 /\
    item Ap [0%nat; 0%nat] / item Bp [0%nat; 0%nat] = 1 / 4 /\
    item Ar [0%nat; 0%nat] / item Br [0%nat; 0%nat] <> get Mr [0%nat; 0%nat] /\
    item Ap [0%nat; 0%nat] / item Bp [0%nat; 0%nat] <> get Mp [0%nat; 0%nat].
Proof.
  do 8 eexists.
  split; [apply construction_returns_declared_model|].
  do 5 (split; [reflexivity|]).
  unfold get. cbn. rewrite exp_0.
  repeat split; try lra; try (field_simplify; lra).
Qed.

(** The scenario at concrete parameter values: the forward pass has no
    result. *)
Example scenario_has_no_values :
  values (declared_model Examples.origin3 Examples.dev2
                         Examples.rpt32 Examples.paid32) Examples.theta32
  = None.
Proof.
  apply (scenario_means_do_not_evaluate [0; 0; 0] [1; 1]); reflexivity.
Qed.

(** ** When the forward pass has a result *)

Lemma broadcast_rev_comm :
  forall s1 s2, broadcast_rev s1 s2 = broadcast_rev s2 s1.
Proof.
  induction s1 as [|a s1 IH]; intros [|b s2]; try reflexivity.
  cbn. rewrite (IH s2).
  destruct (broadcast_rev s2 s1) as [s|]; [|reflexivity].
  rewrite (Nat.eqb_sym b a).
  destruct (a =? b)%nat eqn:Hab.
  - apply Nat.eqb_eq in Hab. subst b. reflexivity.
  - destruct (a =? 1)%nat eqn:Ha; destruct (b =? 1)%nat eqn:Hb;
      try reflexivity.
    apply Nat.eqb_eq in Ha, Hb. apply Nat.eqb_neq in Hab. lia.
Qed.

Lemma broadcast_shapes_comm :
  forall s1 s2, broadcast_shapes s1 s2 = broadcast_shapes s2 s1.
Proof.
  intros. unfold broadcast_shapes. rewrite broadcast_rev_comm. reflexivity.
Qed.

Lemma elemwise_shape :
  forall f a b c,
    elemwise f a b = Some c ->
    broadcast_shapes (shape a) (shape b) = Some (shape c).
Proof.
  intros f a b c H. unfold elemwise in H.
  destruct (broadcast_shapes (shape a) (shape b)); [|discriminate].
  injection H as <-. reflexivity.
Qed.

(** * The call against a library: properties *)

Lemma import_from_resolves :
  forall lib,
    imports_resolve lib = true ->
    WithLibrary.import_from lib "pymc.distributions" imported_names = Ok tt.
Proof.
  intros lib H. unfold imports_resolve in H. cbn in H.
  repeat (apply andb_prop in H; destruct H as [?E H]).
  unfold WithLibrary.import_from. cbn.
  rewrite E, E0, E1, E2, E3. reflexivity.
Qed.

Lemma import_from_inv :
  forall lib u,
    WithLibrary.import_from lib "pymc.distributions" imported_names = Ok u ->
    imports_resolve lib = true.
Proof.
  intros lib u H. unfold WithLibrary.import_from in H. cbn in H.
  unfold imports_resolve. cbn.
  destruct (exports lib "pymc.distributions" "Gamma"); [|discriminate].
  destruct (exports lib "pymc.distributions" "Normal"); [|discriminate].
  destruct (exports lib "pymc.distributions" "Uniform"); [|discriminate].
  destruct (exports lib "pymc.distributions" "HalfNormal"); [|discriminate].
  destruct (exports lib "pymc.distributions" "Deterministic"); [|discriminate].
  reflexivity.
Qed.

(** The body, when it returns: both axes are arrays, the library has
    accepted each of the eleven calls, and the model is the declared
    one. *)
Lemma body_inv :
  forall lib o d r p m,
    WithLibrary.body lib o d r p = Ok m ->
    exists ao ad,
      o = PyArray ao /\ d = PyArray ad /\
      forallb (accepts lib)
              (calls_made (shape ao) (shape ad) (as_array r) (as_array p))
      = true /\
      m = declared_model ao ad (as_array r) (as_array p).
Proof.
  intros lib o d r p m H.
  unfold WithLibrary.body, WithLibrary.with_Model in H.
  destruct (accepts lib Model_call) eqn:E0; [|discriminate].
  unfold bind, WithLibrary.construct in H. cbn in H.
  destruct (accepts lib Normal_call) eqn:E1; [|discriminate]. cbn in H.
  destruct (accepts lib Uniform_call) eqn:E2; [|discriminate]. cbn in H.
  destruct o as [lo | ro | ao]; try discriminate.
  destruct d as [ld | rd | ad]; try discriminate. cbn in H.
  destruct (accepts lib (HalfNormal_call [shape ao; shape ad])) eqn:E3;
    [|discriminate]. cbn in H.
  destruct (accepts lib (Deterministic_call None)) eqn:E4; [|discriminate].
  cbn in H.
  destruct (accepts lib (Deterministic_call (Some [shape ao; shape ad])))
    eqn:E5; [|discriminate]. cbn in H.
  destruct (accepts lib (Gamma_call (as_array r))) eqn:E6; [|discriminate].
  cbn in H.
  destruct (accepts lib (Gamma_call (as_array p))) eqn:E7; [|discriminate].
  cbn in H. injection H as <-.
  exists ao, ad. split; [reflexivity|]. split; [reflexivity|].
  split; [|reflexivity].
  cbn. rewrite E0, E1, E2, E3, E4, E5, E6, E7. reflexivity.
Qed.

Lemma body_intro :
  forall lib ao ad r p,
    forallb (accepts lib)
            (calls_made (shape ao) (shape ad) (as_array r) (as_array p))
    = true ->
    WithLibrary.body lib (PyArray ao) (PyArray ad) r p
    = Ok (declared_model ao ad (as_array r) (as_array p)).
Proof.
  intros lib ao ad r p H. cbn in H.
  repeat (apply andb_prop in H; destruct H as [?E H]).
  unfold WithLibrary.body, WithLibrary.with_Model.
  rewrite E.
  unfold bind, WithLibrary.construct. cbn.
  rewrite E0. cbn. rewrite E1. cbn. rewrite E3. cbn. rewrite E5. cbn.
  rewrite E6. cbn. rewrite E8. cbn. rewrite E9. cbn. reflexivity.
Qed.


Lemma call_returns_model_iff :
  forall lib o d r p kw m,
    WithLibrary.single_level_paid_rpt_loss_model lib o d r p kw = Ok m <->
    imports_resolve lib = true /\
    kwargs_bind kw = true /\
    exists ao ad,
      o = PyArray ao /\ d = PyArray ad /\
      forallb (accepts lib)
              (calls_made (shape ao) (shape ad) (as_array r) (as_array p))
      = true /\
      m = declared_model ao ad (as_array r) (as_array p).
Proof.
  intros lib o d r p kw m. split.
  - intro H. unfold WithLibrary.single_level_paid_rpt_loss_model in H.
    destruct (WithLibrary.import_from lib "pymc.distributions" imported_names)
      as [u|e] eqn:Hi; [|discriminate].
    unfold kwargs_bind.
    destruct (bind_kwargs parameter_names kw) as [u'|e]; [|discriminate].
    split; [apply (import_from_inv lib u Hi)|]. split; [reflexivity|].
    apply body_inv. exact H.
  - intros (Hi & Hk & ao & ad & -> & -> & Hc & ->).
    unfold WithLibrary.single_level_paid_rpt_loss_model.
    rewrite (import_from_resolves lib Hi).
    unfold kwargs_bind in Hk.
    destruct (bind_kwargs parameter_names kw); [|discriminate].
    apply body_intro. exact Hc.
Qed.

(** Under a library that accepts everything, the call on arrays is the
    declaration sequence. *)
Lemma accepting_library_runs_the_declarations :
  forall ao ad ar ap kw,
    kwargs_bind kw = true ->
    WithLibrary.single_level_paid_rpt_loss_model
      accepting_library (PyArray ao) (PyArray ad) (PyArray ar) (PyArray ap) kw
    = single_level_paid_rpt_loss_model ao ad ar ap kw.
Proof.
  intros ao ad ar ap kw Hk.
  rewrite construction_returns_declared_model.
  apply call_returns_model_iff.
  split; [reflexivity|]. split; [exact Hk|].
  exists ao, ad. repeat split; reflexivity.
Qed.

(** ** Construction *)

(** C1, the code on every input, the valid ones included: against the
    library it imports, the call returns no model. The import line asks
    [pymc.distributions] for [Deterministic], which it does not export;
    with that line repaired, the first declaration is refused for its
    keyword [sd] as soon as the arguments are bound. *)
Theorem construction_returns_no_model :
  forall o d r p kw,
    WithLibrary.single_level_paid_rpt_loss_model pymc_library o d r p kw
    = Err (ImportError "pymc.distributions" "Deterministic") /\
    (forall m,
        WithLibrary.single_level_paid_rpt_loss_model
          pymc_library_importable o d r p kw <> Ok m) /\
    (kwargs_bind kw = true ->
     WithLibrary.single_level_paid_rpt_loss_model
       pymc_library_importable o d r p kw = Err (Refused "Normal")).
Proof.
  intros o d r p kw. split; [reflexivity|]. split.
  - intros m H. apply call_returns_model_iff in H.
    destruct H as (_ & _ & ao & ad & _ & _ & Hc & _).
    cbn in Hc. discriminate Hc.
  - intro Hk. unfold WithLibrary.single_level_paid_rpt_loss_model.
    unfold kwargs_bind in Hk. cbn.
    destruct (bind_kwargs parameter_names kw); [reflexivity | discriminate].
Qed.

(** What a library must do for any call to return a model: export
    [Deterministic] from [pymc.distributions], take the keyword [sd] for
    [Normal] and [HalfNormal], take a [shape] made of two tuples, and
    take [shape] for [Deterministic]. *)
Lemma library_requirements :
  forall lib o d r p kw m,
    WithLibrary.single_level_paid_rpt_loss_model lib o d r p kw = Ok m ->
    exports lib "pymc.distributions" "Deterministic" = true /\
    accepts lib Normal_call = true /\
    exists so sd,
      accepts lib (HalfNormal_call [so; sd]) = true /\
      accepts lib (Deterministic_call (Some [so; sd])) = true.
Proof.
  intros lib o d r p kw m H. apply call_returns_model_iff in H.
  destruct H as (Hi & _ & ao & ad & _ & _ & Hc & _).
  unfold imports_resolve in Hi. cbn in Hi, Hc.
  repeat (apply andb_prop in Hi; destruct Hi as [?I Hi]).
  repeat (apply andb_prop in Hc; destruct Hc as [?C Hc]).
  split; [assumption|]. split; [assumption|].
  exists (shape ao), (shape ad). split; assumption.
Qed.

(** ** The observed triangles *)





(** ** Keyword configuration *)

(** C9, as stated, fails: the configuration reaches neither the model
    nor any library call. Nothing read off the outcome of a call gives
    the configuration back, whatever the library. *)
Lemma configuration_does_not_reach_model :
  ~ (exists config_of : result Model -> kwargs_t,
        forall lib o d r p kw,
          kwargs_bind kw = true ->
          config_of (WithLibrary.single_level_paid_rpt_loss_model
                       lib o d r p kw) = kw).
Proof.
  intros [config_of H].
  pose proof (H accepting_library
                (PyArray Examples.origin3) (PyArray Examples.dev2)
                (PyArray Examples.rpt32) (PyArray Examples.paid32)
                [] eq_refl) as H0.
  pose proof (H accepting_library
                (PyArray Examples.origin3) (PyArray Examples.dev2)
                (PyArray Examples.rpt32) (PyArray Examples.paid32)
                [("total_size", "6")] eq_refl) as H1.
  cbn in H0, H1. rewrite H0 in H1. discriminate H1.
Qed.

(** C9, amended: the function accepts every keyword configuration whose
    keys are distinct and name none of its four parameters, and ignores
    it: with any library and any arguments, the outcome of the call
    (the model, or the error) is the same for any two such
    configurations. *)
Theorem configuration_is_ignored :
  forall lib o d r p kw kw',
    kwargs_bind kw = true ->
    kwargs_bind kw' = true ->
    WithLibrary.single_level_paid_rpt_loss_model lib o d r p kw
    = WithLibrary.single_level_paid_rpt_loss_model lib o d r p kw'.
Proof.
  intros lib o d r p kw kw' Hk Hk'.
  unfold WithLibrary.single_level_paid_rpt_loss_model.
  unfold kwargs_bind in Hk, Hk'.
  destruct (bind_kwargs parameter_names kw); [|discriminate].
  destruct (bind_kwargs parameter_names kw'); [|discriminate].
  reflexivity.
Qed.

Lemma configuration_is_ignored_witness :
  kwargs_bind [("total_size", "6"); ("name", "bop")] = true /\
  WithLibrary.single_level_paid_rpt_loss_model accepting_library
    (PyArray Examples.origin3) (PyArray Examples.dev2)
    (PyArray Examples.rpt32) (PyArray Examples.paid32)
    [("total_size", "6"); ("name", "bop")]
  = WithLibrary.single_level_paid_rpt_loss_model accepting_library
      (PyArray Examples.origin3) (PyArray Examples.dev2)
      (PyArray Examples.rpt32) (PyArray Examples.paid32) [].
Proof.
  split; [reflexivity|].
  apply (configuration_is_ignored accepting_library); reflexivity.
Defined.


(** * The Gamma likelihood parameters, in any arithmetic *)

Lemma numeric_elemwise_item :
  forall (num : Type) (f : num -> num -> num) a b c idx,
    Numeric.elemwise f a b = Some c ->
    Numeric.t_item c idx = f (Numeric.get a idx) (Numeric.get b idx).
Proof.
  intros num f a b c idx H. unfold Numeric.elemwise in H.
  destruct (broadcast_shapes (Numeric.t_shape a) (Numeric.t_shape b));
    [|discriminate].
  injection H as <-. reflexivity.
Qed.

Lemma numeric_elemwise_shape :
  forall (num : Type) (f : num -> num -> num) a b c,
    Numeric.elemwise f a b = Some c ->
    broadcast_shapes (Numeric.t_shape a) (Numeric.t_shape b)
    = Some (Numeric.t_shape c).
Proof.
  intros num f a b c H. unfold Numeric.elemwise in H.
  destruct (broadcast_shapes (Numeric.t_shape a) (Numeric.t_shape b));
    [|discriminate].
  injection H as <-. reflexivity.
Qed.

(** The parameters of a likelihood term of the declared model are the
    quotient of the mean by the squared dispersion and the quotient of
    the squared dispersion by the mean. *)
Lemma numeric_likelihood_params_inv :
  forall (num : Type) (ar : Numeric.arithmetic num)
         ao ad r p (vs : Numeric.env num) lik mu sigma A B,
    In (lik, mu, sigma) likelihood_terms ->
    Numeric.likelihood_params ar (declared_model ao ad r p) vs lik
    = Some (A, B) ->
    exists M S,
      lookup mu vs = Some M /\
      lookup sigma vs = Some S /\
      Numeric.elemwise (Numeric.div ar) M
        (Numeric.map_tensor (fun x => Numeric.pow_ ar x 2) S) = Some A /\
      Numeric.elemwise (Numeric.div ar)
        (Numeric.map_tensor (fun x => Numeric.pow_ ar x 2) S) M = Some B.
Proof.
  intros num ar ao ad r p vs lik mu sigma A B Hin H.
  destruct Hin as [E | [E | []]]; injection E as <- <- <-;
    unfold Numeric.likelihood_params in H; cbn in H.
  - destruct (lookup "mu__rpt_loss" vs) as [M|]; [|discriminate].
    destruct (lookup "sigma__rpt_loss" vs) as [S|]; [|discriminate].
    cbn in H.
    destruct (Numeric.elemwise (Numeric.div ar) M _) as [a|] eqn:Ha;
      [|discriminate].
    destruct (Numeric.elemwise (Numeric.div ar) _ M) as [b|] eqn:Hb;
      [|discriminate].
    injection H as <- <-. exists M, S. repeat split; assumption.
  - destruct (lookup "mu__paid_loss" vs) as [M|]; [|discriminate].
    destruct (lookup "sigma__paid_loss" vs) as [S|]; [|discriminate].
    cbn in H.
    destruct (Numeric.elemwise (Numeric.div ar) M _) as [a|] eqn:Ha;
      [|discriminate].
    destruct (Numeric.elemwise (Numeric.div ar) _ M) as [b|] eqn:Hb;
      [|discriminate].
    injection H as <- <-. exists M, S. repeat split; assumption.
Qed.

(** C2: in a model the call returns, against whatever library, both
    likelihood terms are declared with the expressions mu / sigma ** 2
    and sigma ** 2 / mu over their mean and dispersion variables; and in
    whatever arithmetic the tensors are computed (real or binary64),
    whenever the two parameters of a term evaluate, at every cell (o, d)
    the shape is the quotient of mu by the square of sigma and the rate
    is the quotient of the square of sigma by mu, with mu and sigma the
    values of the mean and dispersion at that cell. *)
Theorem gamma_parameter_formulas :
  forall lib o d r p kw m,
    WithLibrary.single_level_paid_rpt_loss_model lib o d r p kw = Ok m ->
    forall lik mu sigma,
      In (lik, mu, sigma) likelihood_terms ->
      (exists obs,
          lookup lik (named_vars m)
          = Some (RandomVariable
                    (Gamma (EDiv (EVar mu) (EPow (EVar sigma) 2))
                           (EDiv (EPow (EVar sigma) 2) (EVar mu)))
                    ["origin_period"; "development_period"] None (Some obs))) /\
      forall (num : Type) (ar : Numeric.arithmetic num)
             (vs : Numeric.env num) A B,
        Numeric.likelihood_params ar m vs lik = Some (A, B) ->
        exists M S,
          lookup mu vs = Some M /\
          lookup sigma vs = Some S /\
          forall o' d',
            Numeric.t_item A [o'; d']
            = Numeric.div ar (Numeric.get M [o'; d'])
                (Numeric.pow_ ar (Numeric.get S [o'; d']) 2) /\
            Numeric.t_item B [o'; d']
            = Numeric.div ar (Numeric.pow_ ar (Numeric.get S [o'; d']) 2)
                (Numeric.get M [o'; d']).
Proof.
  intros lib o d r p kw m Hm lik mu sigma Hin.
  apply call_returns_model_iff in Hm.
  destruct Hm as (_ & _ & ao & ad & _ & _ & _ & ->).
  split.
  - destruct Hin as [E | [E | []]]; injection E as <- <- <-;
      eexists; reflexivity.
  - intros num ar vs A B Hp.
    destruct (numeric_likelihood_params_inv
                num ar ao ad _ _ vs lik mu sigma A B Hin Hp)
      as (M & S & HM & HS & HA & HB).
    exists M, S. split; [exact HM|]. split; [exact HS|].
    intros o' d'. split.
    + rewrite (numeric_elemwise_item _ _ _ _ _ [o'; d'] HA). reflexivity.
    + rewrite (numeric_elemwise_item _ _ _ _ _ [o'; d'] HB). reflexivity.
Qed.

Lemma gamma_parameter_formulas_witness :
  exists m Ar Br Ap Bp,
    WithLibrary.single_level_paid_rpt_loss_model accepting_library
      (PyArray Examples.origin2) (PyArray Examples.dev2)
      (PyArray Examples.rpt22) (PyArray Examples.paid22) []
    = Ok m /\
    Numeric.likelihood_params Numeric.real m real_cells "rpt_loss"
    = Some (Ar, Br) /\
    Numeric.likelihood_params Numeric.real m real_cells "paid_loss"
    = Some (Ap, Bp) /\
    Numeric.t_item Ar [1%nat; 0%nat] = 3 / 16 /\
    Numeric.t_item Br [1%nat; 0%nat] = 16 / 3 /\
    Numeric.t_item Ap [1%nat; 1%nat] = 6 / 9 /\
    Numeric.t_item Bp [1%nat; 1%nat] = 9 / 6.
Proof.
  do 5 eexists.
  split; [reflexivity|]. split; [reflexivity|]. split; [reflexivity|].
  destruct (gamma_parameter_formulas accepting_library
              (PyArray Examples.origin2) (PyArray Examples.dev2)
              (PyArray Examples.rpt22) (PyArray Examples.paid22) []
              _ eq_refl "rpt_loss" "mu__rpt_loss" "sigma__rpt_loss"
              (or_introl eq_refl)) as [_ Hr].
  destruct (Hr R Numeric.real real_cells _ _ eq_refl)
    as (Mr & Sr & HMr & HSr & Fr).
  destruct (gamma_parameter_formulas accepting_library
              (PyArray Examples.origin2) (PyArray Examples.dev2)
              (PyArray Examples.rpt22) (PyArray Examples.paid22) []
              _ eq_refl "paid_loss" "mu__paid_loss" "sigma__paid_loss"
              (or_intror (or_introl eq_refl))) as [_ Hp].
  destruct (Hp R Numeric.real real_cells _ _ eq_refl)
    as (Mp & Sp & HMp & HSp & Fp).
  cbn in HMr, HSr, HMp, HSp.
  injection HMr as <-. injection HSr as <-.
  injection HMp as <-. injection HSp as <-.
  destruct (Fr 1%nat 0%nat) as [Fa Fb].
  destruct (Fp 1%nat 1%nat) as [Ga Gb].
  rewrite Fa, Fb, Ga, Gb. unfold Numeric.get. cbn.
  repeat split; field.
Defined.

(** The same formulas in binary64, at mu = 3 and sigma = 7: the shape is
    the rounded quotient 3 / 49 and the rate the rounded quotient
    49 / 3, whatever the exponential. *)
Example gamma_parameters_in_binary64 :
  forall fexp,
    exists A B,
      Numeric.likelihood_params (Numeric.binary64 fexp)
        (declared_model Examples.origin1 Examples.dev1
                        Examples.rpt11 Examples.paid11)
        float_cells "rpt_loss" = Some (A, B) /\
      Numeric.t_item A [0%nat; 0%nat] = (3 / 49)%float /\
      Numeric.t_item B [0%nat; 0%nat] = (49 / 3)%float.
Proof.
  intro fexp. do 2 eexists. split; [reflexivity|]. split; reflexivity.
Qed.


Example shape_times_rate_in_binary64 :
  (PrimFloat.mul (3 / (7 * (7 * 1))) (7 * (7 * 1) / 3)
   = 0x1.fffffffffffffp-1)%float.
Proof. reflexivity. Qed.



(** * Further properties of the call *)

(** ** Arguments *)


(** An axis passed as a list has no [.shape]: as soon as the import line
    resolves, the configuration binds and the library accepts the first
    four calls, the call ends with an attribute error at the first
    dispersion prior, whatever the other arguments. Triangles passed as
    lists of rows raise no such error: their [.shape] is never asked
    for. *)
Theorem axis_without_shape_raises :
  forall lib o d r p kw,
    imports_resolve lib = true ->
    kwargs_bind kw = true ->
    accepts lib Model_call = true ->
    accepts lib Normal_call = true ->
    accepts lib Uniform_call = true ->
    (forall a, o <> PyArray a) \/ (forall a, d <> PyArray a) ->
    WithLibrary.single_level_paid_rpt_loss_model lib o d r p kw
    = Err (AttributeError "shape").
Proof.
  intros lib o d r p kw Hi Hk E0 E1 E2 Hax.
  unfold WithLibrary.single_level_paid_rpt_loss_model.
  rewrite (import_from_resolves lib Hi).
  unfold kwargs_bind in Hk.
  destruct (bind_kwargs parameter_names kw); [|discriminate].
  unfold WithLibrary.body, WithLibrary.with_Model. rewrite E0.
  unfold bind, WithLibrary.construct. cbn. rewrite E1. cbn. rewrite E2. cbn.
  destruct o as [lo | ro | ao]; try reflexivity.
  destruct d as [ld | rd | ad]; try reflexivity.
  destruct Hax as [H | H]; [destruct (H ao) | destruct (H ad)]; reflexivity.
Qed.

Lemma axis_without_shape_raises_witness :
  WithLibrary.single_level_paid_rpt_loss_model accepting_library
    (PyList [2019; 2020; 2021]) (PyArray Examples.dev2)
    (PyArray Examples.rpt32) (PyArray Examples.paid32) []
  = Err (AttributeError "shape") /\
  exists m,
    WithLibrary.single_level_paid_rpt_loss_model accepting_library
      (PyArray Examples.origin3) (PyArray Examples.dev2)
      (PyRows [[100; 150]; [120; 180]; [90; 140]])
      (PyRows [[80; 130]; [90; 150]; [70; 110]]) []
    = Ok m.
Proof.
  split.
  - apply (axis_without_shape_raises accepting_library); try reflexivity.
    left. intros a H. discriminate H.
  - eexists. reflexivity.
Defined.

(** ** Structure of a returned model *)




(** ** The means, by the lengths of the two axes *)

Lemma mean_value_is_product :
  forall (num : Type) (ar : Numeric.arithmetic num)
         ao ad r p (vs : Numeric.env num) mu pct E P,
    In (mu, pct) mean_terms ->
    lookup "expected_ult__loss" vs = Some E ->
    lookup pct vs = Some P ->
    Numeric.deterministic_value ar (declared_model ao ad r p) vs mu
    = Numeric.elemwise (Numeric.mul ar) E P.
Proof.
  intros num ar ao ad r p vs mu pct E P Hin HE HP.
  destruct Hin as [X | [X | []]]; injection X as <- <-;
    unfold Numeric.deterministic_value; cbn; rewrite HE, HP; reflexivity.
Qed.

(** With two or more origin periods and a different number (two or
    more) of development periods, in a model the call returns and in any
    arithmetic, neither mean has a value when expected_ult__loss has the
    shape of the origin axis and the percentage the shape of the
    development axis: the two vectors do not broadcast. *)
Theorem unequal_axes_mean_has_no_value :
  forall lib ao ad r p kw m (num : Type) (ar : Numeric.arithmetic num)
         (vs : Numeric.env num) mu pct E P O D,
    WithLibrary.single_level_paid_rpt_loss_model
      lib (PyArray ao) (PyArray ad) r p kw = Ok m ->
    In (mu, pct) mean_terms ->
    shape ao = [O] -> shape ad = [D] ->
    lookup "expected_ult__loss" vs = Some E ->
    Numeric.t_shape E = shape ao ->
    lookup pct vs = Some P ->
    Numeric.t_shape P = shape ad ->
    (2 <= O)%nat -> (2 <= D)%nat -> O <> D ->
    Numeric.deterministic_value ar m vs mu = None.
Proof.
  intros lib ao ad r p kw m num ar vs mu pct E P O D
         Hm Hin HO HD HE HsE HP HsP H2O H2D Hne.
  apply call_returns_model_iff in Hm.
  destruct Hm as (_ & _ & ao' & ad' & Eo & Ed & _ & ->).
  injection Eo as <-. injection Ed as <-.
  rewrite (mean_value_is_product num ar ao ad _ _ vs mu pct E P Hin HE HP).
  unfold Numeric.elemwise. rewrite HsE, HsP, HO, HD.
  rewrite (broadcast_shapes_vectors_differ O D H2O H2D Hne). reflexivity.
Qed.

Lemma unequal_axes_mean_has_no_value_witness :
  exists m,
    WithLibrary.single_level_paid_rpt_loss_model accepting_library
      (PyArray Examples.origin3) (PyArray Examples.dev2)
      (PyArray Examples.rpt32) (PyArray Examples.paid32) []
    = Ok m /\
    Numeric.deterministic_value Numeric.real m factors32 "mu__rpt_loss" = None /\
    Numeric.deterministic_value Numeric.real m factors32 "mu__paid_loss" = None.
Proof.
  eexists. split; [reflexivity|]. split.
  - apply (unequal_axes_mean_has_no_value accepting_library
             Examples.origin3 Examples.dev2
             (PyArray Examples.rpt32) (PyArray Examples.paid32) []
             _ R Numeric.real factors32
             "mu__rpt_loss" "expected_pct_of_ult__rpt_loss"
             (Numeric.vector 0 [2; 3; 4]) (Numeric.vector 0 [1 / 2; 1])
             3%nat 2%nat);
      try reflexivity; try (left; reflexivity); lia.
  - apply (unequal_axes_mean_has_no_value accepting_library
             Examples.origin3 Examples.dev2
             (PyArray Examples.rpt32) (PyArray Examples.paid32) []
             _ R Numeric.real factors32
             "mu__paid_loss" "expected_pct_of_ult__paid_loss"
             (Numeric.vector 0 [2; 3; 4]) (Numeric.vector 0 [1 / 4; 1 / 2])
             3%nat 2%nat);
      try reflexivity; try (right; left; reflexivity); lia.
Defined.

(** With as many origin as development periods (two or more), in a model
    the call returns and in any arithmetic, each mean is a vector of that
    length, and seen at cell (o, d) it is the product of
    expected_ult__loss at d (not at o) and the percentage at d: the same
    for every origin. *)
Theorem square_grid_mean_ignores_origin :
  forall lib ao ad r p kw m (num : Type) (ar : Numeric.arithmetic num)
         (vs : Numeric.env num) mu pct E P O,
    WithLibrary.single_level_paid_rpt_loss_model
      lib (PyArray ao) (PyArray ad) r p kw = Ok m ->
    In (mu, pct) mean_terms ->
    shape ao = [O] -> shape ad = [O] ->
    lookup "expected_ult__loss" vs = Some E ->
    Numeric.t_shape E = shape ao ->
    lookup pct vs = Some P ->
    Numeric.t_shape P = shape ad ->
    (2 <= O)%nat ->
    exists M,
      Numeric.deterministic_value ar m vs mu = Some M /\
      Numeric.t_shape M = [O] /\
      forall o' d',
        Numeric.get M [o'; d']
        = Numeric.mul ar (Numeric.t_item E [d']) (Numeric.t_item P [d']).
Proof.
  intros lib ao ad r p kw m num ar vs mu pct E P O
         Hm Hin HO HD HE HsE HP HsP H2O.
  apply call_returns_model_iff in Hm.
  destruct Hm as (_ & _ & ao' & ad' & Eo & Ed & _ & ->).
  injection Eo as <-. injection Ed as <-.
  rewrite (mean_value_is_product num ar ao ad _ _ vs mu pct E P Hin HE HP).
  unfold Numeric.elemwise. rewrite HsE, HsP, HO, HD.
  rewrite broadcast_shapes_vectors_same.
  eexists. split; [reflexivity|]. split; [reflexivity|].
  intros o' d'. unfold Numeric.get. cbn [Numeric.t_shape Numeric.t_item].
  rewrite HsE, HsP, HO, HD.
  destruct O as [|[|n]]; [lia | lia |]. reflexivity.
Qed.

Lemma square_grid_mean_ignores_origin_witness :
  exists m M,
    WithLibrary.single_level_paid_rpt_loss_model accepting_library
      (PyArray Examples.origin2) (PyArray Examples.dev2)
      (PyArray Examples.rpt22) (PyArray Examples.paid22) []
    = Ok m /\
    Numeric.deterministic_value Numeric.real m factors22 "mu__rpt_loss"
    = Some M /\
    Numeric.get M [0%nat; 1%nat] = 3 * 1 /\
    Numeric.get M [1%nat; 1%nat] = 3 * 1.
Proof.
  destruct (square_grid_mean_ignores_origin accepting_library
              Examples.origin2 Examples.dev2
              (PyArray Examples.rpt22) (PyArray Examples.paid22) []
              (declared_model Examples.origin2 Examples.dev2
                              Examples.rpt22 Examples.paid22)
              R Numeric.real factors22
              "mu__rpt_loss" "expected_pct_of_ult__rpt_loss"
              (Numeric.vector 0 [2; 3]) (Numeric.vector 0 [1 / 2; 1]) 2%nat)
    as (M & HM & _ & H);
    try reflexivity; try (left; reflexivity); try lia.
  exists (declared_model Examples.origin2 Examples.dev2
                         Examples.rpt22 Examples.paid22), M.
  split; [reflexivity|]. split; [exact HM|].
  rewrite !H. split; reflexivity.
Defined.

(** With a single origin period, in a model the call returns and in any
    arithmetic, each mean seen at cell (o, d) is the product of the one
    entry of expected_ult__loss and the percentage at d, for every
    development index d: the product per cell. *)
Theorem single_origin_mean_is_per_cell :
  forall lib ao ad r p kw m (num : Type) (ar : Numeric.arithmetic num)
         (vs : Numeric.env num) mu pct E P D,
    WithLibrary.single_level_paid_rpt_loss_model
      lib (PyArray ao) (PyArray ad) r p kw = Ok m ->
    In (mu, pct) mean_terms ->
    shape ao = [1%nat] -> shape ad = [D] ->
    lookup "expected_ult__loss" vs = Some E ->
    Numeric.t_shape E = shape ao ->
    lookup pct vs = Some P ->
    Numeric.t_shape P = shape ad ->
    exists M,
      Numeric.deterministic_value ar m vs mu = Some M /\
      forall o' d',
        (d' < D)%nat ->
        Numeric.get M [o'; d']
        = Numeric.mul ar (Numeric.t_item E [0%nat]) (Numeric.t_item P [d']).
Proof.
  intros lib ao ad r p kw m num ar vs mu pct E P D
         Hm Hin HO HD HE HsE HP HsP.
  apply call_returns_model_iff in Hm.
  destruct Hm as (_ & _ & ao' & ad' & Eo & Ed & _ & ->).
  injection Eo as <-. injection Ed as <-.
  rewrite (mean_value_is_product num ar ao ad _ _ vs mu pct E P Hin HE HP).
  unfold Numeric.elemwise. rewrite HsE, HsP, HO, HD.
  destruct D as [|[|n]].
  - eexists. split; [reflexivity|]. intros o' d' Hd. lia.
  - eexists. split; [reflexivity|]. intros o' d' Hd.
    assert (d' = 0%nat) by lia. subst d'.
    unfold Numeric.get. cbn [Numeric.t_shape Numeric.t_item].
    rewrite HsE, HsP, HO, HD. reflexivity.
  - eexists. split; [reflexivity|]. intros o' d' Hd.
    unfold Numeric.get. cbn [Numeric.t_shape Numeric.t_item].
    rewrite HsE, HsP, HO, HD. reflexivity.
Qed.

Lemma single_origin_mean_is_per_cell_witness :
  exists m M,
    WithLibrary.single_level_paid_rpt_loss_model accepting_library
      (PyArray Examples.origin1) (PyArray dev3)
      (PyArray rpt13) (PyArray paid13) []
    = Ok m /\
    Numeric.deterministic_value Numeric.real m factors13 "mu__paid_loss"
    = Some M /\
    Numeric.get M [0%nat; 2%nat] = 2 * (1 / 2).
Proof.
  destruct (single_origin_mean_is_per_cell accepting_library
              Examples.origin1 dev3 (PyArray rpt13) (PyArray paid13) []
              (declared_model Examples.origin1 dev3 rpt13 paid13)
              R Numeric.real factors13
              "mu__paid_loss" "expected_pct_of_ult__paid_loss"
              (Numeric.vector 0 [2]) (Numeric.vector 0 [1 / 8; 1 / 4; 1 / 2])
              3%nat)
    as (M & HM & H);
    try reflexivity; try (right; left; reflexivity).
  exists (declared_model Examples.origin1 dev3 rpt13 paid13), M.
  split; [reflexivity|]. split; [exact HM|].
  rewrite (H 0%nat 2%nat) by lia. reflexivity.
Defined.

(** ** The two evaluators agree over the real numbers *)

Lemma lookup_of_ndarray :
  forall name (vs : env),
    lookup name (map (fun kv => (fst kv, Numeric.of_ndarray (snd kv))) vs)
    = option_map Numeric.of_ndarray (lookup name vs).
Proof.
  intros name vs. induction vs as [|[k v] vs IH]; [reflexivity|].
  cbn. destruct (String.eqb name k); [reflexivity | exact IH].
Qed.

Lemma elemwise_of_ndarray :
  forall f x y,
    Numeric.elemwise f (Numeric.of_ndarray x) (Numeric.of_ndarray y)
    = option_map Numeric.of_ndarray (elemwise f x y).
Proof.
  intros f x y. unfold Numeric.elemwise, elemwise.
  cbn [Numeric.t_shape Numeric.of_ndarray].
  destruct (broadcast_shapes (shape x) (shape y)); reflexivity.
Qed.

(** Evaluation over the real numbers is the instance of the evaluation
    in any arithmetic at the real operations. *)
Lemma eval_real_agrees :
  forall (vs : env) e,
    Numeric.eval Numeric.real
      (map (fun kv => (fst kv, Numeric.of_ndarray (snd kv))) vs) e
    = option_map Numeric.of_ndarray (eval vs e).
Proof.
  intros vs e. induction e as [name | a IH | a IHa b IHb | a IHa b IHb | a IH k];
    cbn [Numeric.eval eval].
  - apply lookup_of_ndarray.
  - rewrite IH. destruct (eval vs a); reflexivity.
  - rewrite IHa, IHb.
    destruct (eval vs a); [|reflexivity].
    destruct (eval vs b); [|reflexivity].
    cbn [option_map]. apply elemwise_of_ndarray.
  - rewrite IHa, IHb.
    destruct (eval vs a); [|reflexivity].
    destruct (eval vs b); [|reflexivity].
    cbn [option_map]. apply elemwise_of_ndarray.
  - rewrite IH. destruct (eval vs a); reflexivity.
Qed.
